(** * Haystack error taxonomy ([haystack/errors.py])

    A shallow embedding of the exception classes of [haystack.errors]:
    the base class [HaystackError] (constructor, [__getattr__], [__str__],
    [__repr__]), its fourteen subclasses, and the part of the Python runtime
    they rely on (instance dictionaries, truthiness, [getattr], [super]
    chains, [isinstance]).  The telemetry entry point
    [haystack.telemetry.send_custom_event] lives in another module; it is a
    parameter of the development, and every call to it is recorded. *)

From stdpp Require Import base option list strings gmap pretty.

Open Scope string_scope.

(** ** Python values and exceptions *)

Module Py.

(** The values that the attributes of an error can hold.  [VBuiltin] stands
    for a method object of a builtin type (only its qualified name is kept). *)
Inductive PyVal : Type :=
| VNone
| VBool (b : bool)
| VInt (z : Z)
| VStr (s : string)
| VBuiltin (qualname : string).

(** The exceptions that the modelled code can raise or let through.
    [AttributeError tp attr] is "'tp' object has no attribute 'attr'"; a
    [TypeError] carries the operation that failed, not CPython's message. *)
Inductive PyExn : Type :=
| AttributeError (tp attr : string)
| TypeError (operation : string)
| RuntimeError (msg : string).

(** The outcome of an expression: a value or a raised exception. *)
Inductive Result (A : Type) : Type :=
| Ok (a : A)
| Raise (e : PyExn).
Arguments Ok {A} a.
Arguments Raise {A} e.

#[export] Instance Result_ret : MRet Result := fun _ a => Ok a.
#[export] Instance Result_bind : MBind Result := fun _ _ f m =>
  match m with
  | Ok a => f a
  | Raise e => Raise e
  end.

#[export] Instance PyVal_eq_dec : EqDecision PyVal.
Proof. solve_decision. Defined.
#[export] Instance PyExn_eq_dec : EqDecision PyExn.
Proof. solve_decision. Defined.

(** The line feed character of the [\n] escapes. *)
Definition LF : string := String (Ascii.ascii_of_nat 10) EmptyString.

(** Values of the annotated parameter types [Optional[str]], [Optional[int]]
    and [bool]. *)
Definition of_opt_str (s : option string) : PyVal :=
  match s with
  | Some s => VStr s
  | None => VNone
  end.

Definition of_opt_int (z : option Z) : PyVal :=
  match z with
  | Some z => VInt z
  | None => VNone
  end.

(** Truth value testing, as in [if x:]. *)
Definition truthy (v : PyVal) : bool :=
  match v with
  | VNone => false
  | VBool b => b
  | VInt z => negb (Z.eqb z 0)
  | VStr s => negb (String.eqb s EmptyString)
  | VBuiltin _ => true
  end.

(** [str(v)], which is what an f-string field [{v}] inserts. *)
Definition format (v : PyVal) : string :=
  match v with
  | VNone => "None"
  | VBool true => "True"
  | VBool false => "False"
  | VInt z => pretty z
  | VStr s => s
  | VBuiltin q => "<method-wrapper " ++ q ++ ">"  (* the address is left out *)
  end.

Definition type_name (v : PyVal) : string :=
  match v with
  | VNone => "NoneType"
  | VBool _ => "bool"
  | VInt _ => "int"
  | VStr _ => "str"
  | VBuiltin _ => "method-wrapper"
  end.

(** [a + b]: integers (booleans included) add up, strings concatenate,
    every other pair of operand types is a [TypeError]. *)
Definition as_int (v : PyVal) : option Z :=
  match v with
  | VInt z => Some z
  | VBool b => Some (Z.b2z b)
  | _ => None
  end.

Definition add (a b : PyVal) : Result PyVal :=
  match a, b with
  | VStr s, VStr t => Ok (VStr (s ++ t))
  | _, _ =>
      match as_int a, as_int b with
      | Some x, Some y => Ok (VInt (x + y))
      | _, _ => Raise (TypeError (type_name a ++ " + " ++ type_name b))
      end
  end.

(** An object that the errors only reach through [getattr]: the wrapped
    cause of an error.  [tp_getattro] is its whole attribute lookup. *)
Record PyObject : Type := mkPyObject {
  tp_name : string;
  tp_getattro : string → Result PyVal
}.

(** [getattr(None, attr)].  Besides the names that every object resolves
    through [object] (which an error resolves on its own type, so that they
    never reach [__getattr__]), [NoneType] defines [__bool__] only. *)
Definition NoneType_getattr (attr : string) : Result PyVal :=
  if decide (attr = "__bool__") then Ok (VBuiltin "NoneType.__bool__")
  else Raise (AttributeError "NoneType" attr).

(** [getattr(target, attr)] for a target that is [None] or a foreign object. *)
Definition getattr (target : option PyObject) (attr : string) : Result PyVal :=
  match target with
  | None => NoneType_getattr attr
  | Some o => tp_getattro o attr
  end.

End Py.
Import Py.

(** ** The class hierarchy *)

(** The fifteen classes that [errors.py] defines. *)
Inductive Kind : Type :=
| HaystackError
| ModelingError
| PipelineError
| PipelineSchemaError
| PipelineConfigError
| DocumentStoreError
| FilterError
| PineconeDocumentStoreError
| DuplicateDocumentError
| NodeError
| AudioNodeError
| OpenAIError
| OpenAIRateLimitError
| CohereError
| ImageToTextError.

#[export] Instance Kind_eq_dec : EqDecision Kind.
Proof. solve_decision. Defined.

(** [type(self).__name__] *)
Definition kind_name (k : Kind) : string :=
  match k with
  | HaystackError => "HaystackError"
  | ModelingError => "ModelingError"
  | PipelineError => "PipelineError"
  | PipelineSchemaError => "PipelineSchemaError"
  | PipelineConfigError => "PipelineConfigError"
  | DocumentStoreError => "DocumentStoreError"
  | FilterError => "FilterError"
  | PineconeDocumentStoreError => "PineconeDocumentStoreError"
  | DuplicateDocumentError => "DuplicateDocumentError"
  | NodeError => "NodeError"
  | AudioNodeError => "AudioNodeError"
  | OpenAIError => "OpenAIError"
  | OpenAIRateLimitError => "OpenAIRateLimitError"
  | CohereError => "CohereError"
  | ImageToTextError => "ImageToTextError"
  end.

(** The classes of the module together with the builtin classes they derive
    from. *)
Inductive PyClass : Type :=
| Tax (k : Kind)
| ValueError
| Exception
| BaseException
| object.

#[export] Instance PyClass_eq_dec : EqDecision PyClass.
Proof. solve_decision. Defined.

(** The base classes as the [class] statements list them; those of the
    builtin classes are the interpreter's. *)
Definition bases (c : PyClass) : list PyClass :=
  match c with
  | Tax HaystackError => [Exception]
  | Tax ModelingError => [Tax HaystackError]
  | Tax PipelineError => [Tax HaystackError]
  | Tax PipelineSchemaError => [Tax PipelineError]
  | Tax PipelineConfigError => [Tax PipelineError]
  | Tax DocumentStoreError => [Tax HaystackError]
  | Tax FilterError => [Tax DocumentStoreError]
  | Tax PineconeDocumentStoreError => [Tax DocumentStoreError]
  | Tax DuplicateDocumentError => [Tax DocumentStoreError; ValueError]
  | Tax NodeError => [Tax HaystackError]
  | Tax AudioNodeError => [Tax NodeError]
  | Tax OpenAIError => [Tax NodeError]
  | Tax OpenAIRateLimitError => [Tax OpenAIError]
  | Tax CohereError => [Tax NodeError]
  | Tax ImageToTextError => [Tax NodeError]
  | ValueError => [Exception]
  | Exception => [BaseException]
  | BaseException => [object]
  | object => []
  end.

(** [c] derives from [d] through at most [n] [class] statements. *)
Fixpoint derives (n : nat) (c d : PyClass) : bool :=
  bool_decide (c = d) ||
  match n with
  | O => false
  | S n => existsb (fun b => derives n b d) (bases c)
  end.

(** [issubclass(c, d)]; no chain of bases is longer than six classes
    ([OpenAIRateLimitError] down to [object]). *)
Definition issubclass (c d : PyClass) : bool := derives 6 c d.

(** The mathematical subclass relation: the reflexive and transitive closure
    of "is listed as a base of". *)
Definition is_base (c b : PyClass) : Prop := b ∈ bases c.
Definition subclass : relation PyClass := rtc is_base.

(** ** Error objects *)

(** An instance of one of the fifteen classes: its type, its instance
    dictionary, and the [__cause__] slot of [BaseException] ([None] unless the
    error was raised [from] another one). *)
Record Obj : Type := mkObj {
  ob_type : Kind;
  ob_dict : gmap string PyVal;
  ob_cause : option PyObject
}.

(** [cls.__new__(cls)]: a fresh instance. *)
Definition new (k : Kind) : Obj :=
  {| ob_type := k; ob_dict := ∅; ob_cause := None |}.

(** [self.attr = v] *)
Definition setattr (self : Obj) (attr : string) (v : PyVal) : Obj :=
  {| ob_type := ob_type self;
     ob_dict := <[attr := v]> (ob_dict self);
     ob_cause := ob_cause self |}.

(** [raise self from cause] sets the [__cause__] slot. *)
Definition raise_from (self : Obj) (cause : PyObject) : Obj :=
  {| ob_type := ob_type self;
     ob_dict := ob_dict self;
     ob_cause := Some cause |}.

(** [isinstance(self, c)], which is also whether [except c] catches [self]. *)
Definition isinstance (self : Obj) (c : PyClass) : bool :=
  issubclass (Tax (ob_type self)) c.

(** ** Telemetry and the constructor monad *)

(** One call [send_custom_event(event=..., payload=...)]. *)
Record Event : Type := mkEvent {
  event : string;
  payload : gmap string PyVal
}.

(** The constructors run in a state and error monad: the state is the list
    of telemetry calls made so far, oldest first. *)
Definition M (A : Type) : Type := list Event → Result A * list Event.

#[export] Instance M_ret : MRet M := fun _ a calls => (Ok a, calls).
#[export] Instance M_bind : MBind M := fun _ _ f m calls =>
  match m calls with
  | (Ok a, calls') => f a calls'
  | (Raise e, calls') => (Raise e, calls')
  end.

(** How a keyword parameter is passed: left out, or given a value. *)
Inductive arg (T : Type) : Type :=
| omitted
| given (x : T).
Arguments omitted {T}.
Arguments given {T} x.

(** The value of a parameter whose default is [d]. *)
Definition or_default {T : Type} (d : T) (a : arg T) : T :=
  match a with
  | omitted => d
  | given x => x
  end.

(** What [haystack.telemetry.send_custom_event] does with a call, given the
    calls made before it: return ([None]) or raise. *)
Definition Telemetry : Type := list Event → Event → option PyExn.

(** A telemetry module that accepts every event. *)
Definition accepting : Telemetry := fun _ _ => None.

(** A telemetry module that fails on every event. *)
Definition failing (e : PyExn) : Telemetry := fun _ _ => Some e.

Section Errors.

Variable telemetry : Telemetry.

(** [send_custom_event(event=event, payload=payload)]: the call is recorded,
    then the telemetry module decides how it ends. *)
Definition send_custom_event (event : string) (payload : gmap string PyVal) : M () :=
  fun calls =>
    let ev := mkEvent event payload in
    match telemetry calls ev with
    | None => (Ok (), (calls ++ [ev])%list)
    | Some e => (Raise e, (calls ++ [ev])%list)
    end.

(** [super().__init__()] at the end of the chain: for each of the fifteen
    classes the next [__init__] after [HaystackError]'s in the method
    resolution order is the one [BaseException] provides (through [Exception],
    or through [ValueError] for [DuplicateDocumentError]); without arguments
    it leaves the instance dictionary alone. *)
Definition BaseException__init__ (self : Obj) : M Obj := mret self.

(** *** [HaystackError] *)

Definition HaystackError__init__ (self : Obj)
    (message : arg (option string)) (docs_link : arg (option string))
    (send_message_in_event : arg bool) : M Obj :=
  let message := or_default None message in
  let docs_link := or_default None docs_link in
  let send_message_in_event := or_default true send_message_in_event in
  let payload : gmap string PyVal :=
    if send_message_in_event then {[ "message" := of_opt_str message ]} else ∅ in
  _ ← send_custom_event (kind_name (ob_type self) ++ " raised") payload;
  self ← BaseException__init__ self;
  let self :=
    if truthy (of_opt_str message) then setattr self "message" (of_opt_str message)
    else self in
  mret (setattr self "docs_link" VNone).

(** [__getattr__] runs when the normal lookup of [attr] found nothing.  The
    body is an expression statement: its value is dropped and the method
    returns [None]. *)
Definition HaystackError__getattr__ (self : Obj) (attr : string) : Result PyVal :=
  _ ← getattr (ob_cause self) attr;
  Ok VNone.

(** [self.attr], for a name that the classes do not define themselves: the
    instance dictionary first, [__getattr__] when the name is not in it. *)
Definition getattribute (self : Obj) (attr : string) : Result PyVal :=
  match ob_dict self !! attr with
  | Some v => Ok v
  | None => HaystackError__getattr__ self attr
  end.

Definition HaystackError__str__ (self : Obj) : Result PyVal :=
  docs_link ← getattribute self "docs_link";
  if truthy docs_link then
    docs_link ← getattribute self "docs_link";
    let docs_message :=
      VStr (LF ++ LF ++ "Check out the documentation at " ++ format docs_link) in
    message ← getattribute self "message";
    add message docs_message
  else
    getattribute self "message".

(** The builtin [str(self)]: the value of [__str__], which has to be a
    string. *)
Definition str (self : Obj) : Result string :=
  v ← HaystackError__str__ self;
  match v with
  | VStr s => Ok s
  | _ => Raise (TypeError "__str__ returned non-string")
  end.

Definition HaystackError__repr__ (self : Obj) : Result PyVal :=
  s ← str self;
  Ok (VStr s).

(** *** The subclasses

    Each [__init__] forwards to the [__init__] of its base by keyword; a
    parameter that is not forwarded takes the default of the callee. *)

Definition ModelingError__init__ (self : Obj)
    (message : arg (option string)) (docs_link : arg (option string)) : M Obj :=
  let message := or_default None message in
  let docs_link := or_default (Some "https://haystack.deepset.ai/") docs_link in
  HaystackError__init__ self (given message) (given docs_link) omitted.

Definition PipelineError__init__ (self : Obj)
    (message : arg (option string)) (docs_link : arg (option string)) : M Obj :=
  let message := or_default None message in
  let docs_link :=
    or_default (Some "https://docs.haystack.deepset.ai/docs/pipelines") docs_link in
  HaystackError__init__ self (given message) (given docs_link) omitted.

Definition PipelineSchemaError__init__ (self : Obj)
    (message : arg (option string)) : M Obj :=
  let message := or_default None message in
  PipelineError__init__ self (given message) omitted.

Definition PipelineConfigError__init__ (self : Obj)
    (message : arg (option string)) (docs_link : arg (option string)) : M Obj :=
  let message := or_default None message in
  let docs_link :=
    or_default
      (Some "https://docs.haystack.deepset.ai/docs/pipelines#yaml-file-definitions")
      docs_link in
  PipelineError__init__ self (given message) (given docs_link).

Definition DocumentStoreError__init__ (self : Obj)
    (message : arg (option string)) (send_message_in_event : arg bool) : M Obj :=
  let message := or_default None message in
  let send_message_in_event := or_default false send_message_in_event in
  HaystackError__init__ self (given message) omitted (given send_message_in_event).

Definition FilterError__init__ (self : Obj)
    (message : arg (option string)) : M Obj :=
  let message := or_default None message in
  DocumentStoreError__init__ self (given message) omitted.

Definition PineconeDocumentStoreError__init__ (self : Obj)
    (message : arg (option string)) : M Obj :=
  let message := or_default None message in
  DocumentStoreError__init__ self (given message) omitted.

Definition DuplicateDocumentError__init__ (self : Obj)
    (message : arg (option string)) : M Obj :=
  let message := or_default None message in
  DocumentStoreError__init__ self (given message) omitted.

Definition NodeError__init__ (self : Obj)
    (message : arg (option string)) (send_message_in_event : arg bool) : M Obj :=
  let message := or_default None message in
  let send_message_in_event := or_default true send_message_in_event in
  HaystackError__init__ self (given message) omitted (given send_message_in_event).

Definition AudioNodeError__init__ (self : Obj)
    (message : arg (option string)) : M Obj :=
  let message := or_default None message in
  NodeError__init__ self (given message) omitted.

Definition OpenAIError__init__ (self : Obj)
    (message : arg (option string)) (status_code : arg (option Z))
    (send_message_in_event : arg bool) : M Obj :=
  let message := or_default None message in
  let status_code := or_default None status_code in
  let send_message_in_event := or_default false send_message_in_event in
  self ← NodeError__init__ self (given message) (given send_message_in_event);
  mret (setattr self "status_code" (of_opt_int status_code)).

Definition OpenAIRateLimitError__init__ (self : Obj)
    (message : arg (option string)) (send_message_in_event : arg bool) : M Obj :=
  let message := or_default None message in
  let send_message_in_event := or_default false send_message_in_event in
  OpenAIError__init__ self (given message) (given (Some 429%Z))
    (given send_message_in_event).

Definition CohereError__init__ (self : Obj)
    (message : arg (option string)) (status_code : arg (option Z))
    (send_message_in_event : arg bool) : M Obj :=
  let message := or_default None message in
  let status_code := or_default None status_code in
  let send_message_in_event := or_default false send_message_in_event in
  self ← NodeError__init__ self (given message) (given send_message_in_event);
  mret (setattr self "status_code" (of_opt_int status_code)).

Definition ImageToTextError__init__ (self : Obj)
    (message : arg (option string)) : M Obj :=
  let message := or_default None message in
  NodeError__init__ self (given message) omitted.

End Errors.

(** ** Instantiation *)

(** A call [Cls(...)] of one of the fifteen classes, with the keyword
    parameters that the signature of [Cls.__init__] accepts. *)
Inductive Call : Type :=
| New_HaystackError (message : arg (option string)) (docs_link : arg (option string))
    (send_message_in_event : arg bool)
| New_ModelingError (message : arg (option string)) (docs_link : arg (option string))
| New_PipelineError (message : arg (option string)) (docs_link : arg (option string))
| New_PipelineSchemaError (message : arg (option string))
| New_PipelineConfigError (message : arg (option string)) (docs_link : arg (option string))
| New_DocumentStoreError (message : arg (option string)) (send_message_in_event : arg bool)
| New_FilterError (message : arg (option string))
| New_PineconeDocumentStoreError (message : arg (option string))
| New_DuplicateDocumentError (message : arg (option string))
| New_NodeError (message : arg (option string)) (send_message_in_event : arg bool)
| New_AudioNodeError (message : arg (option string))
| New_OpenAIError (message : arg (option string)) (status_code : arg (option Z))
    (send_message_in_event : arg bool)
| New_OpenAIRateLimitError (message : arg (option string)) (send_message_in_event : arg bool)
| New_CohereError (message : arg (option string)) (status_code : arg (option Z))
    (send_message_in_event : arg bool)
| New_ImageToTextError (message : arg (option string)).

(** The class that is instantiated. *)
Definition call_kind (c : Call) : Kind :=
  match c with
  | New_HaystackError _ _ _ => HaystackError
  | New_ModelingError _ _ => ModelingError
  | New_PipelineError _ _ => PipelineError
  | New_PipelineSchemaError _ => PipelineSchemaError
  | New_PipelineConfigError _ _ => PipelineConfigError
  | New_DocumentStoreError _ _ => DocumentStoreError
  | New_FilterError _ => FilterError
  | New_PineconeDocumentStoreError _ => PineconeDocumentStoreError
  | New_DuplicateDocumentError _ => DuplicateDocumentError
  | New_NodeError _ _ => NodeError
  | New_AudioNodeError _ => AudioNodeError
  | New_OpenAIError _ _ _ => OpenAIError
  | New_OpenAIRateLimitError _ _ => OpenAIRateLimitError
  | New_CohereError _ _ _ => CohereError
  | New_ImageToTextError _ => ImageToTextError
  end.

(** The [message] argument as passed. *)
Definition call_message_arg (c : Call) : arg (option string) :=
  match c with
  | New_HaystackError m _ _ | New_ModelingError m _ | New_PipelineError m _
  | New_PipelineSchemaError m | New_PipelineConfigError m _
  | New_DocumentStoreError m _ | New_FilterError m
  | New_PineconeDocumentStoreError m | New_DuplicateDocumentError m
  | New_NodeError m _ | New_AudioNodeError m | New_OpenAIError m _ _
  | New_OpenAIRateLimitError m _ | New_CohereError m _ _
  | New_ImageToTextError m => m
  end.

(** The message of the call: in every signature [message] defaults to
    [None]. *)
Definition call_message (c : Call) : option string :=
  or_default None (call_message_arg c).

(** The [docs_link] argument as passed; [omitted] also where the signature
    has no such parameter. *)
Definition call_docs_link_arg (c : Call) : arg (option string) :=
  match c with
  | New_HaystackError _ d _ | New_ModelingError _ d | New_PipelineError _ d
  | New_PipelineConfigError _ d => d
  | _ => omitted
  end.

(** The [send_message_in_event] argument as passed; [omitted] also where the
    signature has no such parameter. *)
Definition call_send_arg (c : Call) : arg bool :=
  match c with
  | New_HaystackError _ _ s | New_DocumentStoreError _ s | New_NodeError _ s
  | New_OpenAIError _ _ s | New_OpenAIRateLimitError _ s | New_CohereError _ _ s => s
  | _ => omitted
  end.

(** The same call with another [message] argument. *)
Definition with_message (m : arg (option string)) (c : Call) : Call :=
  match c with
  | New_HaystackError _ d s => New_HaystackError m d s
  | New_ModelingError _ d => New_ModelingError m d
  | New_PipelineError _ d => New_PipelineError m d
  | New_PipelineSchemaError _ => New_PipelineSchemaError m
  | New_PipelineConfigError _ d => New_PipelineConfigError m d
  | New_DocumentStoreError _ s => New_DocumentStoreError m s
  | New_FilterError _ => New_FilterError m
  | New_PineconeDocumentStoreError _ => New_PineconeDocumentStoreError m
  | New_DuplicateDocumentError _ => New_DuplicateDocumentError m
  | New_NodeError _ s => New_NodeError m s
  | New_AudioNodeError _ => New_AudioNodeError m
  | New_OpenAIError _ c s => New_OpenAIError m c s
  | New_OpenAIRateLimitError _ s => New_OpenAIRateLimitError m s
  | New_CohereError _ c s => New_CohereError m c s
  | New_ImageToTextError _ => New_ImageToTextError m
  end.

(** [Cls(...)]: a fresh instance of the class, initialised by its
    [__init__]. *)
Definition construct (telemetry : Telemetry) (c : Call) : M Obj :=
  match c with
  | New_HaystackError m d s =>
      HaystackError__init__ telemetry (new HaystackError) m d s
  | New_ModelingError m d =>
      ModelingError__init__ telemetry (new ModelingError) m d
  | New_PipelineError m d =>
      PipelineError__init__ telemetry (new PipelineError) m d
  | New_PipelineSchemaError m =>
      PipelineSchemaError__init__ telemetry (new PipelineSchemaError) m
  | New_PipelineConfigError m d =>
      PipelineConfigError__init__ telemetry (new PipelineConfigError) m d
  | New_DocumentStoreError m s =>
      DocumentStoreError__init__ telemetry (new DocumentStoreError) m s
  | New_FilterError m =>
      FilterError__init__ telemetry (new FilterError) m
  | New_PineconeDocumentStoreError m =>
      PineconeDocumentStoreError__init__ telemetry (new PineconeDocumentStoreError) m
  | New_DuplicateDocumentError m =>
      DuplicateDocumentError__init__ telemetry (new DuplicateDocumentError) m
  | New_NodeError m s =>
      NodeError__init__ telemetry (new NodeError) m s
  | New_AudioNodeError m =>
      AudioNodeError__init__ telemetry (new AudioNodeError) m
  | New_OpenAIError m c s =>
      OpenAIError__init__ telemetry (new OpenAIError) m c s
  | New_OpenAIRateLimitError m s =>
      OpenAIRateLimitError__init__ telemetry (new OpenAIRateLimitError) m s
  | New_CohereError m c s =>
      CohereError__init__ telemetry (new CohereError) m c s
  | New_ImageToTextError m =>
      ImageToTextError__init__ telemetry (new ImageToTextError) m
  end.

(** The events that a run emitted: the calls it added to the record. *)
Definition emitted {A : Type} (m : M A) (before : list Event) : list Event :=
  drop (length before) (m before).2.

(** The result of a run. *)
Definition result {A : Type} (m : M A) (before : list Event) : Result A :=
  (m before).1.

(** The telemetry module returns normally on what the run sends it. *)
Definition telemetry_returns {A : Type} (telemetry : Telemetry) (m : M A)
    (before : list Event) : Prop :=
  Forall (fun ev => telemetry before ev = None) (emitted m before).

(** What a call sends and builds when the telemetry module accepts every
    event; [construct_run] below shows that every telemetry module is sent
    the same event, and that the same instance is built whenever it
    returns. *)
Definition sent (c : Call) : list Event := emitted (construct accepting c) [].

Definition built (c : Call) : Result Obj := result (construct accepting c) [].

(** The classes that pass [send_message_in_event=False] down to
    [HaystackError.__init__] when the caller leaves the flag out: those that
    declare the default [False] themselves, and the subclasses of
    [DocumentStoreError] that forward the message only. *)
Definition silent_kinds : list Kind :=
  [DocumentStoreError; FilterError; PineconeDocumentStoreError;
   DuplicateDocumentError; OpenAIError; OpenAIRateLimitError; CohereError].

(** The text that the [docs_link] branch of [__str__] builds. *)
Definition with_docs_hint (message docs_link : string) : string :=
  message ++ LF ++ LF ++ "Check out the documentation at " ++ docs_link.

(** A foreign object whose attributes are exactly those of a dictionary. *)
Definition plain_object (tp : string) (attrs : gmap string PyVal) : PyObject :=
  mkPyObject tp (fun attr =>
    match attrs !! attr with
    | Some v => Ok v
    | None => Raise (AttributeError tp attr)
    end).

(** An error of the module seen as the cause of another one. *)
Definition as_object (o : Obj) : PyObject :=
  mkPyObject (kind_name (ob_type o)) (getattribute o).

(** ** Example calls and objects *)

(** [PipelineConfigError("missing field 'nodes'")] *)
Definition config_error_call : Call :=
  New_PipelineConfigError (given (Some "missing field 'nodes'")) omitted.

(** [HaystackError()] *)
Definition bare_call : Call := New_HaystackError omitted omitted omitted.

(** [HaystackError] called with the empty string as message *)
Definition empty_message_call : Call :=
  New_HaystackError (given (Some EmptyString)) omitted omitted.

(** [DocumentStoreError("no index for customer 4711")] *)
Definition store_error_call : Call :=
  New_DocumentStoreError (given (Some "no index for customer 4711")) omitted.

(** [DocumentStoreError("no index for customer 4711", send_message_in_event=True)] *)
Definition loud_store_error_call : Call :=
  New_DocumentStoreError (given (Some "no index for customer 4711")) (given true).

(** [OpenAIRateLimitError("slow down", send_message_in_event=True)] *)
Definition rate_limit_call : Call :=
  New_OpenAIRateLimitError (given (Some "slow down")) (given true).

(** A [FileNotFoundError] whose [errno] is 2 and whose [filename] is
    [pipeline.yml]. *)
Definition file_not_found : PyObject :=
  plain_object "FileNotFoundError"
    {[ "errno" := VInt 2; "filename" := VStr "pipeline.yml" ]}.

(** The instance that [PipelineError("cannot load the pipeline")] builds,
    raised [from] [file_not_found]. *)
Definition wrapped_error : Obj :=
  raise_from
    (setattr (setattr (new PipelineError) "message" (VStr "cannot load the pipeline"))
       "docs_link" VNone)
    file_not_found.

(** A telemetry module that is out of order. *)
Definition unreachable : Telemetry := failing (RuntimeError "telemetry unreachable").

(** The same call with another [docs_link] argument, where the signature
    has the parameter. *)
Definition with_docs_link (d : arg (option string)) (c : Call) : Call :=
  match c with
  | New_HaystackError m _ s => New_HaystackError m d s
  | New_ModelingError m _ => New_ModelingError m d
  | New_PipelineError m _ => New_PipelineError m d
  | New_PipelineConfigError m _ => New_PipelineConfigError m d
  | _ => c
  end.

(** The classes whose [__init__] assigns [self.status_code]. *)
Definition status_kinds : list Kind :=
  [OpenAIError; OpenAIRateLimitError; CohereError].

(** The classes that derive from [HaystackError] directly. *)
Definition families : list Kind :=
  [ModelingError; PipelineError; DocumentStoreError; NodeError].

(** [CohereError("quota exceeded", status_code=None)] *)
Definition cohere_call : Call :=
  New_CohereError (given (Some "quota exceeded")) (given None) omitted.

(** [AudioNodeError("no audio backend")] *)
Definition audio_call : Call := New_AudioNodeError (given (Some "no audio backend")).

(** * Properties *)

(** ** Running a constructor *)

Ltac run_init :=
  cbv [sent built emitted result construct accepting failing
       HaystackError__init__ ModelingError__init__ PipelineError__init__
       PipelineSchemaError__init__ PipelineConfigError__init__
       DocumentStoreError__init__ FilterError__init__
       PineconeDocumentStoreError__init__ DuplicateDocumentError__init__
       NodeError__init__ AudioNodeError__init__ OpenAIError__init__
       OpenAIRateLimitError__init__ CohereError__init__ ImageToTextError__init__
       BaseException__init__ send_custom_event or_default
       mbind M_bind mret M_ret new ob_type kind_name fst snd].

Ltac run_accepting := run_init; cbv [length drop app].

(** Every telemetry module is sent the event that [accepting] is sent, and
    the telemetry module alone decides between the instance that [accepting]
    lets through and its own exception. *)
Lemma construct_run (T : Telemetry) (c : Call) (calls : list Event) :
  ∃ ev o,
    sent c = [ev] ∧ built c = Ok o ∧
    construct T c calls =
      (match T calls ev with None => Ok o | Some e => Raise e end,
       (calls ++ [ev])%list).
Proof.
  destruct c; eexists; eexists;
    (split; [run_accepting; reflexivity|]);
    (split; [run_accepting; reflexivity|]);
    run_init; destruct (T calls _); reflexivity.
Qed.

Lemma construct_outcome (T : Telemetry) (c : Call) (calls : list Event) :
  ∃ ev o,
    sent c = [ev] ∧ built c = Ok o ∧
    (construct T c calls).2 = (calls ++ [ev])%list ∧
    emitted (construct T c) calls = [ev] ∧
    result (construct T c) calls =
      match T calls ev with None => Ok o | Some e => Raise e end.
Proof.
  destruct (construct_run T c calls) as (ev & o & Hs & Hb & Hrun).
  exists ev, o. unfold emitted, result. rewrite Hrun. simpl.
  repeat split; try assumption. apply drop_app_length.
Qed.

Lemma construct_returns (T : Telemetry) (c : Call) (calls : list Event) :
  telemetry_returns T (construct T c) calls →
  ∃ o, built c = Ok o ∧ result (construct T c) calls = Ok o.
Proof.
  intros Hret.
  destruct (construct_outcome T c calls) as (ev & o & _ & Hb & _ & Hem & Hres).
  unfold telemetry_returns in Hret. rewrite Hem in Hret.
  rewrite Forall_singleton in Hret. rewrite Hret in Hres. eauto.
Qed.

Lemma accepting_returns {A : Type} (m : M A) (calls : list Event) :
  telemetry_returns accepting m calls.
Proof. apply Forall_forall. reflexivity. Qed.

(** ** What is sent *)

Lemma sent_event (c : Call) (ev : Event) :
  sent c = [ev] → event ev = kind_name (call_kind c) ++ " raised".
Proof. destruct c; run_accepting; intros [= <-]; reflexivity. Qed.

Lemma sent_payload (c : Call) (ev : Event) :
  sent c = [ev] →
  payload ev =
    match call_send_arg c with
    | given true => {[ "message" := of_opt_str (call_message c) ]}
    | given false => ∅
    | omitted =>
        if bool_decide (call_kind c ∈ silent_kinds) then ∅
        else {[ "message" := of_opt_str (call_message c) ]}
    end.
Proof.
  destruct c; run_accepting; intros [= <-]; simpl;
    repeat match goal with
           | a : arg bool |- _ => destruct a as [|[]]
           end; reflexivity.
Qed.

(** ** What is built *)

Lemma built_fields (c : Call) (o : Obj) :
  built c = Ok o →
  ob_type o = call_kind c ∧ ob_cause o = None ∧
  ob_dict o !! "docs_link" = Some VNone ∧
  ob_dict o !! "message" =
    (if truthy (of_opt_str (call_message c)) then Some (of_opt_str (call_message c))
     else None).
Proof.
  destruct c; run_accepting; intros [= <-]; unfold call_message; simpl;
    destruct (truthy _); simpl; (repeat split; by simplify_map_eq).
Qed.

Lemma built_rate_limit (m : arg (option string)) (s : arg bool) (o : Obj) :
  built (New_OpenAIRateLimitError m s) = Ok o →
  ob_dict o !! "status_code" = Some (VInt 429).
Proof. run_accepting. intros [= <-]. simpl. by simplify_map_eq. Qed.

(** Only the truth value of the message decides what is stored: two falsy
    messages build the same instance. *)
Lemma built_with_message (c : Call) (m0 : arg (option string)) :
  call_message c = Some EmptyString →
  or_default None m0 = None →
  built (with_message m0 c) = built c.
Proof.
  unfold call_message. intros Hc Hm0.
  destruct m0 as [|[s0|]]; try discriminate Hm0; clear Hm0;
    destruct c; simpl in Hc;
    match goal with
    | H : or_default None ?m = _ |- _ =>
        destruct m as [|[s|]]; simpl in H; try discriminate H; injection H as ->
    end; reflexivity.
Qed.

Lemma truthy_nonempty (s : string) : s ≠ EmptyString → truthy (VStr s) = true.
Proof. intros Hs. simpl. by apply negb_true_iff, String.eqb_neq. Qed.

(** ** Attribute lookup *)

Lemma getattribute_own (self : Obj) (attr : string) (v : PyVal) :
  ob_dict self !! attr = Some v → getattribute self attr = Ok v.
Proof. unfold getattribute. by intros ->. Qed.

Lemma getattribute_missing (self : Obj) (attr : string) :
  ob_dict self !! attr = None →
  getattribute self attr = HaystackError__getattr__ self attr.
Proof. unfold getattribute. by intros ->. Qed.

(** Without a cause the lookup ends in the [AttributeError] of [None], as the
    comment in [__getattr__] expects, for every name but [__bool__]. *)
Lemma getattr_no_cause (self : Obj) (attr : string) :
  ob_cause self = None → attr ≠ "__bool__" →
  HaystackError__getattr__ self attr = Raise (AttributeError "NoneType" attr).
Proof.
  intros Hc Hattr. unfold HaystackError__getattr__, getattr, NoneType_getattr.
  rewrite Hc. by rewrite decide_False.
Qed.

(** A failure of the lookup on the cause comes back unchanged. *)
Lemma getattr_cause_failure (self : Obj) (cause : PyObject) (attr : string) (e : PyExn) :
  ob_cause self = Some cause → tp_getattro cause attr = Raise e →
  HaystackError__getattr__ self attr = Raise e.
Proof.
  intros Hc He. unfold HaystackError__getattr__, getattr. rewrite Hc. simpl.
  by rewrite He.
Qed.

(** A value found on the cause is dropped. *)
Lemma getattr_cause_value (self : Obj) (cause : PyObject) (attr : string) (v : PyVal) :
  ob_cause self = Some cause → tp_getattro cause attr = Ok v →
  HaystackError__getattr__ self attr = Ok VNone.
Proof.
  intros Hc Hv. unfold HaystackError__getattr__, getattr. rewrite Hc. simpl.
  by rewrite Hv.
Qed.

(** ** Rendering *)

(** With a falsy [docs_link] attribute, [__str__] is the [message] read. *)
Lemma str_without_docs_link (self : Obj) :
  ob_dict self !! "docs_link" = Some VNone →
  HaystackError__str__ self = getattribute self "message".
Proof.
  intros Hd. unfold HaystackError__str__.
  rewrite (getattribute_own _ _ _ Hd). reflexivity.
Qed.

(** The [docs_link] branch of [__str__] does build the documentation hint,
    for an instance that has a [docs_link]. *)
Lemma str_with_docs_link (self : Obj) (message docs_link : string) :
  ob_dict self !! "message" = Some (VStr message) →
  ob_dict self !! "docs_link" = Some (VStr docs_link) →
  docs_link ≠ EmptyString →
  str self = Ok (with_docs_hint message docs_link).
Proof.
  intros Hm Hd Hne. unfold str, HaystackError__str__.
  rewrite (getattribute_own _ _ _ Hd). cbv [mbind Result_bind].
  rewrite (truthy_nonempty _ Hne).
  rewrite (getattribute_own _ _ _ Hm). reflexivity.
Qed.

Lemma str_message_only (self : Obj) (message : string) :
  ob_dict self !! "message" = Some (VStr message) →
  ob_dict self !! "docs_link" = Some VNone →
  str self = Ok message.
Proof.
  intros Hm Hd. unfold str. rewrite (str_without_docs_link _ Hd).
  by rewrite (getattribute_own _ _ _ Hm).
Qed.

(** Whatever the cause, an instance without [message] and with a falsy
    [docs_link] has no rendering. *)
Lemma str_no_message (self : Obj) :
  ob_dict self !! "message" = None →
  ob_dict self !! "docs_link" = Some VNone →
  ∃ e, str self = Raise e.
Proof.
  intros Hm Hd. unfold str. rewrite (str_without_docs_link _ Hd).
  rewrite (getattribute_missing _ _ Hm). unfold HaystackError__getattr__.
  destruct (getattr _ _); simpl; eauto.
Qed.

Lemma str_no_message_no_cause (self : Obj) :
  ob_dict self !! "message" = None →
  ob_dict self !! "docs_link" = Some VNone →
  ob_cause self = None →
  str self = Raise (AttributeError "NoneType" "message").
Proof.
  intros Hm Hd Hc. unfold str. rewrite (str_without_docs_link _ Hd).
  rewrite (getattribute_missing _ _ Hm).
  by rewrite (getattr_no_cause _ _ Hc).
Qed.

(** ** Classes *)

Lemma derives_sound (n : nat) (c d : PyClass) :
  derives n c d = true → subclass c d.
Proof.
  revert c. induction n as [|n IH]; intros c; simpl.
  - rewrite orb_false_r. intros ->%bool_decide_eq_true. constructor.
  - intros [->%bool_decide_eq_true|(b & Hb & Hd)%existsb_exists]%orb_true_iff.
    + constructor.
    + eapply rtc_l; [|by apply IH]. by apply list_elem_of_In.
Qed.

(** Six steps are enough: [issubclass] decides the subclass relation. *)
Lemma issubclass_spec (c d : PyClass) : issubclass c d = true ↔ subclass c d.
Proof.
  split; [apply derives_sound|].
  induction 1 as [c|c b d Hb _ IH]; unfold issubclass in *.
  - destruct c as [[]| | | |]; reflexivity.
  - unfold is_base in Hb.
    destruct c as [[]| | | |]; simpl in Hb; set_unfold; destruct_or?; subst;
      try contradiction;
      destruct d as [[]| | | |]; vm_compute in IH |- *; congruence.
Qed.

(** * The claims *)

(** ** Rendering *)

(** C1 (does not hold on the code).  [__init__] stores [None] in [docs_link]
    whatever [docs_link] it is given or defaults to, so the rendering of a
    freshly built error with a non-empty message is the message alone: the
    blank line and the documentation hint are never part of it. *)
Theorem C1_render_leaves_docs_link_out
    (T : Telemetry) (c : Call) (calls : list Event) (msg : string) :
  call_message c = Some msg →
  msg ≠ EmptyString →
  telemetry_returns T (construct T c) calls →
  ∃ o, result (construct T c) calls = Ok o ∧ str o = Ok msg.
Proof.
  intros Hmsg Hne Hret.
  destruct (construct_returns T c calls Hret) as (o & Hb & Hres).
  exists o. split; [assumption|].
  destruct (built_fields c o Hb) as (_ & _ & Hd & Hm).
  rewrite Hmsg in Hm. simpl of_opt_str in Hm.
  rewrite (truthy_nonempty _ Hne) in Hm.
  by apply str_message_only.
Qed.

Lemma C1_render_leaves_docs_link_out_witness :
  call_message config_error_call = Some "missing field 'nodes'" ∧
  "missing field 'nodes'" ≠ EmptyString ∧
  telemetry_returns accepting (construct accepting config_error_call) [] ∧
  ∃ o, result (construct accepting config_error_call) [] = Ok o ∧
       str o = Ok "missing field 'nodes'".
Proof.
  assert (H1 : call_message config_error_call = Some "missing field 'nodes'")
    by reflexivity.
  assert (H2 : "missing field 'nodes'" ≠ EmptyString) by discriminate.
  assert (H3 : telemetry_returns accepting (construct accepting config_error_call) [])
    by apply accepting_returns.
  exact (conj H1 (conj H2 (conj H3
    (C1_render_leaves_docs_link_out accepting config_error_call [] _ H1 H2 H3)))).
Defined.

(** The rendering that the example of C1 expects is not the one that the
    code produces. *)
Example render_config_error :
  (o ← result (construct accepting config_error_call) []; str o)
    = Ok "missing field 'nodes'" ∧
  "missing field 'nodes'" ≠
    with_docs_hint "missing field 'nodes'"
      "https://docs.haystack.deepset.ai/docs/pipelines#yaml-file-definitions".
Proof. split; [reflexivity | discriminate]. Qed.

(** C8 (does not hold on the code).  An error built without a message has no
    [message] attribute, and its [docs_link] is [None]: [__str__] reads
    [self.message], which ends in the [AttributeError] of [__getattr__]; once
    a cause is attached the rendering still fails, whatever the cause. *)
Theorem C8_render_without_message_raises
    (T : Telemetry) (c : Call) (calls : list Event) :
  call_message c = None →
  telemetry_returns T (construct T c) calls →
  ∃ o, result (construct T c) calls = Ok o ∧
       str o = Raise (AttributeError "NoneType" "message") ∧
       ∀ cause, ∃ e, str (raise_from o cause) = Raise e.
Proof.
  intros Hmsg Hret.
  destruct (construct_returns T c calls Hret) as (o & Hb & Hres).
  exists o. split; [assumption|].
  destruct (built_fields c o Hb) as (_ & Hc & Hd & Hm).
  rewrite Hmsg in Hm. simpl in Hm.
  split; [by apply str_no_message_no_cause|].
  intros cause. by apply str_no_message.
Qed.

Lemma C8_render_without_message_raises_witness :
  call_message bare_call = None ∧
  telemetry_returns accepting (construct accepting bare_call) [] ∧
  ∃ o, result (construct accepting bare_call) [] = Ok o ∧
       str o = Raise (AttributeError "NoneType" "message") ∧
       ∀ cause, ∃ e, str (raise_from o cause) = Raise e.
Proof.
  assert (H1 : call_message bare_call = None) by reflexivity.
  assert (H2 : telemetry_returns accepting (construct accepting bare_call) [])
    by apply accepting_returns.
  exact (conj H1 (conj H2
    (C8_render_without_message_raises accepting bare_call [] H1 H2))).
Defined.

(** ** Telemetry *)

(** C2.  Whatever the class, the arguments, the telemetry module and the
    calls made before, a construction adds exactly one call to the record,
    and its event name is the name of the instantiated class followed by
    [" raised"]. *)
Theorem C2_one_event_per_construction
    (T : Telemetry) (c : Call) (calls : list Event) :
  ∃ pl,
    (construct T c calls).2 =
      (calls ++ [mkEvent (kind_name (call_kind c) ++ " raised") pl])%list ∧
    emitted (construct T c) calls =
      [mkEvent (kind_name (call_kind c) ++ " raised") pl].
Proof.
  destruct (construct_outcome T c calls) as (ev & o & Hs & _ & Hcalls & Hem & _).
  exists (payload ev). rewrite <- (sent_event c ev Hs).
  destruct ev. by split.
Qed.

(** C3.  When the caller leaves [send_message_in_event] out (or the class has
    no such parameter), the payload is empty for the seven classes of
    [silent_kinds], whatever the message, and is the dictionary that maps
    ["message"] to the message for the eight other classes. *)
Theorem C3_payload_with_default_flag
    (T : Telemetry) (c : Call) (calls : list Event) :
  call_send_arg c = omitted →
  ∃ ev,
    emitted (construct T c) calls = [ev] ∧
    payload ev =
      if bool_decide (call_kind c ∈ silent_kinds) then ∅
      else {[ "message" := of_opt_str (call_message c) ]}.
Proof.
  intros Hflag.
  destruct (construct_outcome T c calls) as (ev & o & Hs & _ & _ & Hem & _).
  exists ev. split; [assumption|].
  rewrite (sent_payload c ev Hs), Hflag. reflexivity.
Qed.

Lemma C3_payload_with_default_flag_witness :
  call_send_arg store_error_call = omitted ∧
  ∃ ev, emitted (construct accepting store_error_call) [] = [ev] ∧ payload ev = ∅.
Proof.
  assert (H1 : call_send_arg store_error_call = omitted) by reflexivity.
  exact (conj H1 (C3_payload_with_default_flag accepting store_error_call [] H1)).
Defined.

(** A flag that the caller passes is followed, whatever the class. *)
Lemma payload_with_given_flag
    (T : Telemetry) (c : Call) (calls : list Event) (b : bool) :
  call_send_arg c = given b →
  ∃ ev,
    emitted (construct T c) calls = [ev] ∧
    payload ev = if b then {[ "message" := of_opt_str (call_message c) ]} else ∅.
Proof.
  intros Hflag.
  destruct (construct_outcome T c calls) as (ev & o & Hs & _ & _ & Hem & _).
  exists ev. split; [assumption|].
  rewrite (sent_payload c ev Hs), Hflag. by destruct b.
Qed.

(** Two constructions of one silent class that leave the flag out emit the
    same events, whatever their messages. *)
Lemma silent_kinds_hide_the_message
    (T T' : Telemetry) (c c' : Call) (calls calls' : list Event) :
  call_kind c = call_kind c' →
  call_kind c ∈ silent_kinds →
  call_send_arg c = omitted → call_send_arg c' = omitted →
  emitted (construct T c) calls = emitted (construct T' c') calls'.
Proof.
  intros Hk Hsilent Hf Hf'.
  destruct (construct_outcome T c calls) as (ev & o & Hs & _ & _ & -> & _).
  destruct (construct_outcome T' c' calls') as (ev' & o' & Hs' & _ & _ & -> & _).
  pose proof (sent_event c ev Hs) as He.
  pose proof (sent_event c' ev' Hs') as He'.
  pose proof (sent_payload c ev Hs) as Hp.
  pose proof (sent_payload c' ev' Hs') as Hp'.
  rewrite Hf in Hp. rewrite Hf', <- Hk in Hp'. rewrite <- Hk in He'.
  rewrite bool_decide_eq_true_2 in Hp, Hp' by assumption.
  destruct ev, ev'; simpl in *. congruence.
Qed.

(** With the flag passed as [True], a silent class sends the message. *)
Example loud_store_error :
  emitted (construct accepting loud_store_error_call) [] =
    [mkEvent "DocumentStoreError raised"
       {[ "message" := VStr "no index for customer 4711" ]}].
Proof. reflexivity. Qed.

(** C5 as stated fails: with a telemetry module that raises, the constructor
    of [PipelineConfigError("missing field 'nodes'")] raises the exception of
    the telemetry module and returns no instance. *)
Lemma C5_telemetry_failure_escapes :
  unreachable [] (mkEvent "PipelineConfigError raised"
                    {[ "message" := VStr "missing field 'nodes'" ]})
    = Some (RuntimeError "telemetry unreachable") ∧
  construct unreachable config_error_call [] =
    (Raise (RuntimeError "telemetry unreachable"),
     [mkEvent "PipelineConfigError raised"
        {[ "message" := VStr "missing field 'nodes'" ]}]) ∧
  ¬ ∃ o, result (construct unreachable config_error_call) [] = Ok o.
Proof.
  split; [reflexivity|]. split; [reflexivity|].
  intros [o Ho]. discriminate Ho.
Qed.

(** C5 (amended).  The telemetry call alone decides how a construction ends:
    when it raises, the constructor raises the same exception and returns no
    instance; when it returns, the constructor returns an instance. *)
Theorem C5_constructor_follows_telemetry
    (T : Telemetry) (c : Call) (calls : list Event) :
  ∃ ev,
    emitted (construct T c) calls = [ev] ∧
    match T calls ev with
    | Some e => result (construct T c) calls = Raise e
    | None => ∃ o, result (construct T c) calls = Ok o
    end.
Proof.
  destruct (construct_outcome T c calls) as (ev & o & _ & _ & _ & Hem & Hres).
  exists ev. split; [assumption|].
  destruct (T calls ev); eauto.
Qed.

(** ** Fields of the instances *)

(** C6.  Whatever the message and the flag, an [OpenAIRateLimitError] comes
    out of its constructor with [status_code] 429. *)
Theorem C6_rate_limit_status_code
    (T : Telemetry) (m : arg (option string)) (s : arg bool) (calls : list Event) :
  telemetry_returns T (construct T (New_OpenAIRateLimitError m s)) calls →
  ∃ o,
    result (construct T (New_OpenAIRateLimitError m s)) calls = Ok o ∧
    ob_dict o !! "status_code" = Some (VInt 429) ∧
    getattribute o "status_code" = Ok (VInt 429).
Proof.
  intros Hret.
  destruct (construct_returns T _ calls Hret) as (o & Hb & Hres).
  exists o. split; [assumption|].
  pose proof (built_rate_limit m s o Hb) as Hcode.
  split; [assumption|]. by apply getattribute_own.
Qed.

Lemma C6_rate_limit_status_code_witness :
  telemetry_returns accepting (construct accepting rate_limit_call) [] ∧
  ∃ o,
    result (construct accepting rate_limit_call) [] = Ok o ∧
    ob_dict o !! "status_code" = Some (VInt 429) ∧
    getattribute o "status_code" = Ok (VInt 429).
Proof.
  assert (H1 : telemetry_returns accepting (construct accepting rate_limit_call) [])
    by apply accepting_returns.
  exact (conj H1
    (C6_rate_limit_status_code accepting (given (Some "slow down")) (given true) [] H1)).
Defined.

(** C9.  Whatever the class and the arguments, the [docs_link] that is
    stored on the instance is [None]. *)
Theorem C9_docs_link_is_None
    (T : Telemetry) (c : Call) (calls : list Event) :
  telemetry_returns T (construct T c) calls →
  ∃ o,
    result (construct T c) calls = Ok o ∧
    ob_dict o !! "docs_link" = Some VNone ∧
    getattribute o "docs_link" = Ok VNone.
Proof.
  intros Hret.
  destruct (construct_returns T c calls Hret) as (o & Hb & Hres).
  exists o. split; [assumption|].
  destruct (built_fields c o Hb) as (_ & _ & Hd & _).
  split; [assumption|]. by apply getattribute_own.
Qed.

Lemma C9_docs_link_is_None_witness :
  telemetry_returns accepting
    (construct accepting
       (New_ModelingError (given (Some "no such model"))
          (given (Some "https://example.org/models")))) [] ∧
  ∃ o,
    result
      (construct accepting
         (New_ModelingError (given (Some "no such model"))
            (given (Some "https://example.org/models")))) [] = Ok o ∧
    ob_dict o !! "docs_link" = Some VNone ∧
    getattribute o "docs_link" = Ok VNone.
Proof.
  assert (H1 : telemetry_returns accepting
                 (construct accepting
                    (New_ModelingError (given (Some "no such model"))
                       (given (Some "https://example.org/models")))) [])
    by apply accepting_returns.
  exact (conj H1 (C9_docs_link_is_None accepting _ [] H1)).
Defined.

(** C10.  An error built with the empty string as message is the instance
    that the same call builds without a message ([message] left out, or
    [None]): it has no [message] attribute, so that reading [message] is the
    business of [__getattr__], which raises [AttributeError] as long as there
    is no cause. *)
Theorem C10_empty_message_is_no_message
    (T : Telemetry) (c : Call) (calls : list Event) :
  call_message c = Some EmptyString →
  telemetry_returns T (construct T c) calls →
  ∃ o,
    result (construct T c) calls = Ok o ∧
    ob_dict o !! "message" = None ∧
    getattribute o "message" = Raise (AttributeError "NoneType" "message") ∧
    (∀ cause,
       getattribute (raise_from o cause) "message" =
         HaystackError__getattr__ (raise_from o cause) "message") ∧
    (∀ m0 T' calls',
       or_default None m0 = None →
       telemetry_returns T' (construct T' (with_message m0 c)) calls' →
       result (construct T' (with_message m0 c)) calls' = Ok o).
Proof.
  intros Hmsg Hret.
  destruct (construct_returns T c calls Hret) as (o & Hb & Hres).
  exists o. split; [assumption|].
  destruct (built_fields c o Hb) as (_ & Hc & _ & Hm).
  rewrite Hmsg in Hm. simpl in Hm.
  split; [assumption|]. split; [|split].
  - rewrite (getattribute_missing _ _ Hm). by apply getattr_no_cause.
  - intros cause. by apply getattribute_missing.
  - intros m0 T' calls' Hm0 Hret'.
    destruct (construct_returns T' _ calls' Hret') as (o' & Hb' & Hres').
    rewrite (built_with_message c m0 Hmsg Hm0), Hb in Hb'. congruence.
Qed.

Lemma C10_empty_message_is_no_message_witness :
  call_message empty_message_call = Some EmptyString ∧
  telemetry_returns accepting (construct accepting empty_message_call) [] ∧
  ∃ o,
    result (construct accepting empty_message_call) [] = Ok o ∧
    ob_dict o !! "message" = None ∧
    getattribute o "message" = Raise (AttributeError "NoneType" "message") ∧
    (∀ cause,
       getattribute (raise_from o cause) "message" =
         HaystackError__getattr__ (raise_from o cause) "message") ∧
    (∀ m0 T' calls',
       or_default None m0 = None →
       telemetry_returns T' (construct T' (with_message m0 empty_message_call)) calls' →
       result (construct T' (with_message m0 empty_message_call)) calls' = Ok o).
Proof.
  assert (H1 : call_message empty_message_call = Some EmptyString) by reflexivity.
  assert (H2 : telemetry_returns accepting (construct accepting empty_message_call) [])
    by apply accepting_returns.
  exact (conj H1 (conj H2
    (C10_empty_message_is_no_message accepting empty_message_call [] H1 H2))).
Defined.

(** The telemetry payloads of the two calls differ when the message is sent:
    the empty string in one, [None] in the other. *)
Example empty_message_payload :
  emitted (construct accepting empty_message_call) [] =
    [mkEvent "HaystackError raised" {[ "message" := VStr EmptyString ]}] ∧
  emitted (construct accepting bare_call) [] =
    [mkEvent "HaystackError raised" {[ "message" := VNone ]}].
Proof. split; reflexivity. Qed.

(** ** Attribute delegation *)

(** C4 (does not hold on the code).  For a name that is not in the instance
    dictionary, and a cause that has the attribute, the read returns [None]:
    [__getattr__] looks the attribute up on the cause and drops the value. *)
Theorem C4_getattr_drops_the_value_of_the_cause
    (self : Obj) (attr : string) (cause : PyObject) (v : PyVal) :
  ob_dict self !! attr = None →
  ob_cause self = Some cause →
  tp_getattro cause attr = Ok v →
  getattribute self attr = Ok VNone.
Proof.
  intros Hown Hcause Hv.
  rewrite (getattribute_missing _ _ Hown).
  by apply (getattr_cause_value self cause attr v).
Qed.

Lemma C4_getattr_drops_the_value_of_the_cause_witness :
  ob_dict wrapped_error !! "errno" = None ∧
  ob_cause wrapped_error = Some file_not_found ∧
  tp_getattro file_not_found "errno" = Ok (VInt 2) ∧
  getattribute wrapped_error "errno" = Ok VNone.
Proof.
  assert (H1 : ob_dict wrapped_error !! "errno" = None) by reflexivity.
  assert (H2 : ob_cause wrapped_error = Some file_not_found) by reflexivity.
  assert (H3 : tp_getattro file_not_found "errno" = Ok (VInt 2)) by reflexivity.
  exact (conj H1 (conj H2 (conj H3
    (C4_getattr_drops_the_value_of_the_cause wrapped_error "errno" file_not_found
       (VInt 2) H1 H2 H3)))).
Defined.

(** [wrapped_error] is what the constructor of [PipelineError] returns, with
    the cause attached. *)
Example wrapped_error_built :
  (o ← built (New_PipelineError (given (Some "cannot load the pipeline")) omitted);
   Ok (raise_from o file_not_found)) = Ok wrapped_error.
Proof. reflexivity. Qed.

(** The part of C4 about errors without a cause: the read of a name that is
    not in the instance dictionary raises [AttributeError]. *)
Lemma getattribute_no_cause (self : Obj) (attr : string) :
  ob_dict self !! attr = None →
  ob_cause self = None →
  attr ≠ "__bool__" →
  getattribute self attr = Raise (AttributeError "NoneType" attr).
Proof.
  intros Hown Hcause Hattr. rewrite (getattribute_missing _ _ Hown).
  by apply getattr_no_cause.
Qed.

(** A failure of the cause is forwarded as it is. *)
Lemma getattribute_cause_failure
    (self : Obj) (attr : string) (cause : PyObject) (e : PyExn) :
  ob_dict self !! attr = None →
  ob_cause self = Some cause →
  tp_getattro cause attr = Raise e →
  getattribute self attr = Raise e.
Proof.
  intros Hown Hcause He. rewrite (getattribute_missing _ _ Hown).
  by apply (getattr_cause_failure self cause attr e).
Qed.

(** An error that wraps an error of the module reads [None] where the inner
    error has a message. *)
Example wrapped_message :
  (inner ← built config_error_call;
   outer ← built bare_call;
   getattribute (raise_from outer (as_object inner)) "message") = Ok VNone.
Proof. reflexivity. Qed.

(** ** Classes *)

(** C7.  Every instance of [DuplicateDocumentError] is an instance of
    [DocumentStoreError] and an instance of [ValueError]. *)
Theorem C7_duplicate_document_error_is_both (o : Obj) :
  ob_type o = DuplicateDocumentError →
  isinstance o (Tax DocumentStoreError) = true ∧
  isinstance o ValueError = true.
Proof. unfold isinstance. intros ->. split; reflexivity. Qed.

Lemma C7_duplicate_document_error_is_both_witness :
  ob_type (new DuplicateDocumentError) = DuplicateDocumentError ∧
  isinstance (new DuplicateDocumentError) (Tax DocumentStoreError) = true ∧
  isinstance (new DuplicateDocumentError) ValueError = true.
Proof.
  assert (H1 : ob_type (new DuplicateDocumentError) = DuplicateDocumentError)
    by reflexivity.
  exact (conj H1 (C7_duplicate_document_error_is_both _ H1)).
Defined.

(** No other class of the module is a [ValueError]. *)
Lemma only_duplicate_is_value_error (k : Kind) :
  issubclass (Tax k) ValueError = true ↔ k = DuplicateDocumentError.
Proof. destruct k; vm_compute; split; congruence. Qed.

(** The instances that the constructor of [DuplicateDocumentError] returns
    are of that class. *)
Lemma constructed_type (T : Telemetry) (c : Call) (calls : list Event) (o : Obj) :
  result (construct T c) calls = Ok o → ob_type o = call_kind c.
Proof.
  intros Hres.
  destruct (construct_outcome T c calls) as (ev & o' & _ & Hb & _ & _ & Hres').
  rewrite Hres' in Hres. destruct (T calls ev); [discriminate|].
  injection Hres as <-. by destruct (built_fields c o' Hb).
Qed.

(** * Further properties of the module *)

#[local] Set Warnings "-clear-no-such-hyp".

(** ** Attributes of a fresh instance *)

(** The instance dictionary that a call builds. *)
Lemma built_dict (c : Call) (o : Obj) :
  built c = Ok o →
  ∀ attr,
    is_Some (ob_dict o !! attr) ↔
      attr = "docs_link" ∨
      (attr = "message" ∧ truthy (of_opt_str (call_message c)) = true) ∨
      (attr = "status_code" ∧ call_kind c ∈ status_kinds).
Proof.
  intros Hb attr.
  assert (Hst : ∀ k, k ∈ status_kinds ↔
                  k = OpenAIError ∨ k = OpenAIRateLimitError ∨ k = CohereError).
  { intros k. unfold status_kinds. set_solver. }
  rewrite Hst. clear Hst.
  destruct c; revert Hb; run_accepting; intros [= <-]; unfold call_message;
    simpl; destruct (truthy _); simpl;
    rewrite ?lookup_insert_is_Some, ?lookup_empty, ?is_Some_alt; naive_solver.
Qed.

(** X1.  A non-empty message is stored as it is: the instance that the
    constructor returns has a [message] attribute equal to the message of
    the call. *)
Theorem X1_message_is_stored
    (T : Telemetry) (c : Call) (calls : list Event) (msg : string) :
  call_message c = Some msg →
  msg ≠ EmptyString →
  telemetry_returns T (construct T c) calls →
  ∃ o, result (construct T c) calls = Ok o ∧
       getattribute o "message" = Ok (VStr msg).
Proof.
  intros Hmsg Hne Hret.
  destruct (construct_returns T c calls Hret) as (o & Hb & Hres).
  exists o. split; [assumption|].
  destruct (built_fields c o Hb) as (_ & _ & _ & Hm).
  rewrite Hmsg in Hm. simpl of_opt_str in Hm.
  rewrite (truthy_nonempty _ Hne) in Hm. by apply getattribute_own.
Qed.

Lemma X1_message_is_stored_witness :
  call_message audio_call = Some "no audio backend" ∧
  "no audio backend" ≠ EmptyString ∧
  telemetry_returns accepting (construct accepting audio_call) [] ∧
  ∃ o, result (construct accepting audio_call) [] = Ok o ∧
       getattribute o "message" = Ok (VStr "no audio backend").
Proof.
  assert (H1 : call_message audio_call = Some "no audio backend") by reflexivity.
  assert (H2 : "no audio backend" ≠ EmptyString) by discriminate.
  assert (H3 : telemetry_returns accepting (construct accepting audio_call) [])
    by apply accepting_returns.
  exact (conj H1 (conj H2 (conj H3
    (X1_message_is_stored accepting audio_call [] _ H1 H2 H3)))).
Defined.

(** X2.  A [send_message_in_event] flag that the caller passes overrides the
    default of the class: with [True] the payload carries the message, also
    for the classes that are silent by default; with [False] it is empty, also
    for the classes that report by default. *)
Theorem X2_explicit_flag_is_followed
    (T : Telemetry) (c : Call) (calls : list Event) (b : bool) :
  call_send_arg c = given b →
  ∃ ev,
    emitted (construct T c) calls = [ev] ∧
    payload ev = if b then {[ "message" := of_opt_str (call_message c) ]} else ∅.
Proof.
  intros Hflag.
  destruct (construct_outcome T c calls) as (ev & o & Hs & _ & _ & Hem & _).
  exists ev. split; [assumption|].
  rewrite (sent_payload c ev Hs), Hflag. by destruct b.
Qed.

Lemma X2_explicit_flag_is_followed_witness :
  call_send_arg loud_store_error_call = given true ∧
  ∃ ev,
    emitted (construct accepting loud_store_error_call) [] = [ev] ∧
    payload ev = {[ "message" := VStr "no index for customer 4711" ]}.
Proof.
  assert (H1 : call_send_arg loud_store_error_call = given true) by reflexivity.
  exact (conj H1 (X2_explicit_flag_is_followed accepting loud_store_error_call [] true H1)).
Defined.

(** X3.  The payload has no key besides ["message"]: neither [docs_link] nor
    [status_code] nor the class goes into it. *)
Theorem X3_payload_carries_the_message_only
    (T : Telemetry) (c : Call) (calls : list Event) :
  ∃ ev,
    emitted (construct T c) calls = [ev] ∧
    ∀ key, key ≠ "message" → payload ev !! key = None.
Proof.
  destruct (construct_outcome T c calls) as (ev & o & Hs & _ & _ & Hem & _).
  exists ev. split; [assumption|]. intros key Hkey.
  rewrite (sent_payload c ev Hs).
  destruct (call_send_arg c) as [|[]]; [destruct (bool_decide _)| |];
    by simplify_map_eq.
Qed.

(** X4.  [OpenAIError] and [CohereError] store the [status_code] they are
    given, and [None] when it is left out; the attribute exists either way
    (unlike [message], it is assigned unconditionally). *)
Theorem X4_status_code_is_stored
    (T : Telemetry) (c : Call) (calls : list Event)
    (m : arg (option string)) (code : arg (option Z)) (s : arg bool) :
  c = New_OpenAIError m code s ∨ c = New_CohereError m code s →
  telemetry_returns T (construct T c) calls →
  ∃ o, result (construct T c) calls = Ok o ∧
       ob_dict o !! "status_code" = Some (of_opt_int (or_default None code)) ∧
       getattribute o "status_code" = Ok (of_opt_int (or_default None code)).
Proof.
  intros Hc Hret.
  destruct (construct_returns T c calls Hret) as (o & Hb & Hres).
  exists o. split; [assumption|].
  assert (Hcode : ob_dict o !! "status_code" = Some (of_opt_int (or_default None code))).
  { destruct Hc as [-> | ->]; revert Hb; run_accepting; intros [= <-]; simpl;
      by simplify_map_eq. }
  split; [assumption|]. by apply getattribute_own.
Qed.

Lemma X4_status_code_is_stored_witness :
  (cohere_call = New_OpenAIError (given (Some "quota exceeded")) (given None) omitted ∨
   cohere_call = New_CohereError (given (Some "quota exceeded")) (given None) omitted) ∧
  telemetry_returns accepting (construct accepting cohere_call) [] ∧
  ∃ o, result (construct accepting cohere_call) [] = Ok o ∧
       ob_dict o !! "status_code" = Some VNone ∧
       getattribute o "status_code" = Ok VNone.
Proof.
  assert (H1 : cohere_call = New_OpenAIError (given (Some "quota exceeded")) (given None) omitted ∨
               cohere_call = New_CohereError (given (Some "quota exceeded")) (given None) omitted)
    by (right; reflexivity).
  assert (H2 : telemetry_returns accepting (construct accepting cohere_call) [])
    by apply accepting_returns.
  exact (conj H1 (conj H2
    (X4_status_code_is_stored accepting cohere_call [] _ _ _ H1 H2))).
Defined.

(** X5.  The attributes of a fresh instance are [docs_link], [message] when
    the message is truthy, and [status_code] for the three classes of
    [status_kinds]; nothing else is stored, in particular not the
    [send_message_in_event] flag. *)
Theorem X5_attributes_of_a_fresh_instance
    (T : Telemetry) (c : Call) (calls : list Event) :
  telemetry_returns T (construct T c) calls →
  ∃ o, result (construct T c) calls = Ok o ∧
       ∀ attr,
         is_Some (ob_dict o !! attr) ↔
           attr = "docs_link" ∨
           (attr = "message" ∧ truthy (of_opt_str (call_message c)) = true) ∨
           (attr = "status_code" ∧ call_kind c ∈ status_kinds).
Proof.
  intros Hret.
  destruct (construct_returns T c calls Hret) as (o & Hb & Hres).
  exists o. split; [assumption|]. by apply built_dict.
Qed.

Lemma X5_attributes_of_a_fresh_instance_witness :
  telemetry_returns accepting (construct accepting rate_limit_call) [] ∧
  ∃ o, result (construct accepting rate_limit_call) [] = Ok o ∧
       ∀ attr,
         is_Some (ob_dict o !! attr) ↔
           attr = "docs_link" ∨
           (attr = "message" ∧
            truthy (of_opt_str (call_message rate_limit_call)) = true) ∨
           (attr = "status_code" ∧ call_kind rate_limit_call ∈ status_kinds).
Proof.
  assert (H1 : telemetry_returns accepting (construct accepting rate_limit_call) [])
    by apply accepting_returns.
  exact (conj H1 (X5_attributes_of_a_fresh_instance accepting rate_limit_call [] H1)).
Defined.



(** X7.  The [docs_link] argument has no effect at all: two calls that
    differ in [docs_link] only (passed, passed as [None], or left to the
    default of the class) send the same event and end in the same way, with
    the same instance. *)
Theorem X7_docs_link_argument_is_ignored
    (T : Telemetry) (c : Call) (d : arg (option string)) (calls : list Event) :
  construct T (with_docs_link d c) calls = construct T c calls.
Proof. destruct c; reflexivity. Qed.

(** ** Rendering an instance that was changed after construction *)

(** X8.  The documentation hint is rendered once a [docs_link] is assigned
    to the instance after construction: for a non-empty message and a
    non-empty link, [str] is the message, a blank line, and the hint. *)
Theorem X8_docs_link_assigned_afterwards_is_rendered
    (T : Telemetry) (c : Call) (calls : list Event) (msg link : string) :
  call_message c = Some msg →
  msg ≠ EmptyString →
  link ≠ EmptyString →
  telemetry_returns T (construct T c) calls →
  ∃ o, result (construct T c) calls = Ok o ∧
       str (setattr o "docs_link" (VStr link)) =
         Ok (msg ++ LF ++ LF ++ "Check out the documentation at " ++ link).
Proof.
  intros Hmsg Hne Hlink Hret.
  destruct (construct_returns T c calls Hret) as (o & Hb & Hres).
  exists o. split; [assumption|].
  destruct (built_fields c o Hb) as (_ & _ & _ & Hm).
  rewrite Hmsg in Hm. simpl of_opt_str in Hm.
  rewrite (truthy_nonempty _ Hne) in Hm.
  apply (str_with_docs_link _ msg link); simpl; by simplify_map_eq.
Qed.

Lemma X8_docs_link_assigned_afterwards_is_rendered_witness :
  call_message config_error_call = Some "missing field 'nodes'" ∧
  "missing field 'nodes'" ≠ EmptyString ∧
  "https://docs.haystack.deepset.ai/docs/pipelines#yaml-file-definitions"
    ≠ EmptyString ∧
  telemetry_returns accepting (construct accepting config_error_call) [] ∧
  ∃ o, result (construct accepting config_error_call) [] = Ok o ∧
       str (setattr o "docs_link"
              (VStr "https://docs.haystack.deepset.ai/docs/pipelines#yaml-file-definitions")) =
         Ok ("missing field 'nodes'" ++ LF ++ LF ++ "Check out the documentation at "
               ++ "https://docs.haystack.deepset.ai/docs/pipelines#yaml-file-definitions").
Proof.
  assert (H1 : call_message config_error_call = Some "missing field 'nodes'")
    by reflexivity.
  assert (H2 : "missing field 'nodes'" ≠ EmptyString) by discriminate.
  assert (H3 : "https://docs.haystack.deepset.ai/docs/pipelines#yaml-file-definitions"
                 ≠ EmptyString) by discriminate.
  assert (H4 : telemetry_returns accepting (construct accepting config_error_call) [])
    by apply accepting_returns.
  exact (conj H1 (conj H2 (conj H3 (conj H4
    (X8_docs_link_assigned_afterwards_is_rendered accepting config_error_call []
       _ _ H1 H2 H3 H4))))).
Defined.

(** X9.  [__str__] tests the truth value of [docs_link]: with a [message]
    string and a [docs_link] attribute that is falsy ([None], the empty
    string, [0], [False]), the rendering is the message alone. *)
Theorem X9_falsy_docs_link_renders_the_message_alone
    (self : Obj) (msg : string) (link : PyVal) :
  ob_dict self !! "message" = Some (VStr msg) →
  ob_dict self !! "docs_link" = Some link →
  truthy link = false →
  str self = Ok msg ∧ HaystackError__repr__ self = Ok (VStr msg).
Proof.
  intros Hm Hd Hfalsy.
  assert (Hstr : str self = Ok msg).
  { unfold str, HaystackError__str__.
    rewrite (getattribute_own _ _ _ Hd). cbv [mbind Result_bind].
    rewrite Hfalsy. by rewrite (getattribute_own _ _ _ Hm). }
  split; [assumption|]. unfold HaystackError__repr__. by rewrite Hstr.
Qed.

Lemma X9_falsy_docs_link_renders_the_message_alone_witness :
  ob_dict (setattr wrapped_error "docs_link" (VStr EmptyString)) !! "message" =
    Some (VStr "cannot load the pipeline") ∧
  ob_dict (setattr wrapped_error "docs_link" (VStr EmptyString)) !! "docs_link" =
    Some (VStr EmptyString) ∧
  truthy (VStr EmptyString) = false ∧
  str (setattr wrapped_error "docs_link" (VStr EmptyString)) =
    Ok "cannot load the pipeline" ∧
  HaystackError__repr__ (setattr wrapped_error "docs_link" (VStr EmptyString)) =
    Ok (VStr "cannot load the pipeline").
Proof.
  assert (H1 : ob_dict (setattr wrapped_error "docs_link" (VStr EmptyString))
                 !! "message" = Some (VStr "cannot load the pipeline"))
    by reflexivity.
  assert (H2 : ob_dict (setattr wrapped_error "docs_link" (VStr EmptyString))
                 !! "docs_link" = Some (VStr EmptyString))
    by reflexivity.
  assert (H3 : truthy (VStr EmptyString) = false) by reflexivity.
  exact (conj H1 (conj H2 (conj H3
    (X9_falsy_docs_link_renders_the_message_alone _ _ _ H1 H2 H3)))).
Defined.

(** X10.  With a [docs_link] assigned afterwards but no message, the
    rendering fails in the concatenation branch as well: [self.message] is
    read first and raises [AttributeError]. *)
Theorem X10_docs_link_without_message_raises
    (T : Telemetry) (c : Call) (calls : list Event) (link : string) :
  truthy (of_opt_str (call_message c)) = false →
  link ≠ EmptyString →
  telemetry_returns T (construct T c) calls →
  ∃ o, result (construct T c) calls = Ok o ∧
       str (setattr o "docs_link" (VStr link)) =
         Raise (AttributeError "NoneType" "message").
Proof.
  intros Hmsg Hlink Hret.
  destruct (construct_returns T c calls Hret) as (o & Hb & Hres).
  exists o. split; [assumption|].
  destruct (built_fields c o Hb) as (_ & Hcause & _ & Hm).
  rewrite Hmsg in Hm.
  set (o' := setattr o "docs_link" (VStr link)).
  assert (Hd : ob_dict o' !! "docs_link" = Some (VStr link))
    by (subst o'; simpl; by simplify_map_eq).
  assert (Hm' : ob_dict o' !! "message" = None)
    by (subst o'; simpl; by simplify_map_eq).
  unfold str, HaystackError__str__.
  rewrite (getattribute_own _ _ _ Hd). cbv [mbind Result_bind].
  rewrite (truthy_nonempty _ Hlink).
  rewrite (getattribute_no_cause o' "message" Hm' Hcause); [reflexivity|discriminate].
Qed.

Lemma X10_docs_link_without_message_raises_witness :
  truthy (of_opt_str (call_message empty_message_call)) = false ∧
  "https://haystack.deepset.ai/" ≠ EmptyString ∧
  telemetry_returns accepting (construct accepting empty_message_call) [] ∧
  ∃ o, result (construct accepting empty_message_call) [] = Ok o ∧
       str (setattr o "docs_link" (VStr "https://haystack.deepset.ai/")) =
         Raise (AttributeError "NoneType" "message").
Proof.
  assert (H1 : truthy (of_opt_str (call_message empty_message_call)) = false)
    by reflexivity.
  assert (H2 : "https://haystack.deepset.ai/" ≠ EmptyString) by discriminate.
  assert (H3 : telemetry_returns accepting (construct accepting empty_message_call) [])
    by apply accepting_returns.
  exact (conj H1 (conj H2 (conj H3
    (X10_docs_link_without_message_raises accepting empty_message_call [] _ H1 H2 H3)))).
Defined.

(** X11.  [repr] of a fresh instance is its [str]: the message when the
    message is truthy (no class name, no quotes), and the [AttributeError]
    of the missing [message] otherwise. *)
Theorem X11_repr_of_a_fresh_instance
    (T : Telemetry) (c : Call) (calls : list Event) :
  telemetry_returns T (construct T c) calls →
  ∃ o, result (construct T c) calls = Ok o ∧
       HaystackError__repr__ o =
         if truthy (of_opt_str (call_message c)) then Ok (of_opt_str (call_message c))
         else Raise (AttributeError "NoneType" "message").
Proof.
  intros Hret.
  destruct (construct_returns T c calls Hret) as (o & Hb & Hres).
  exists o. split; [assumption|].
  destruct (built_fields c o Hb) as (_ & Hcause & Hd & Hm).
  unfold HaystackError__repr__.
  destruct (call_message c) as [msg|]; simpl in *.
  - destruct (negb (String.eqb msg EmptyString)).
    + by rewrite (str_message_only o msg Hm Hd).
    + by rewrite (str_no_message_no_cause o Hm Hd Hcause).
  - by rewrite (str_no_message_no_cause o Hm Hd Hcause).
Qed.

Lemma X11_repr_of_a_fresh_instance_witness :
  telemetry_returns accepting (construct accepting audio_call) [] ∧
  ∃ o, result (construct accepting audio_call) [] = Ok o ∧
       HaystackError__repr__ o = Ok (VStr "no audio backend").
Proof.
  assert (H1 : telemetry_returns accepting (construct accepting audio_call) [])
    by apply accepting_returns.
  exact (conj H1 (X11_repr_of_a_fresh_instance accepting audio_call [] H1)).
Defined.

(** ** Attribute delegation *)



(** X13.  An attribute of the instance itself shadows the cause: a name in
    the instance dictionary is read from there, whatever the cause has
    under that name. *)
Theorem X13_own_attributes_shadow_the_cause
    (T : Telemetry) (c : Call) (calls : list Event) (msg : string)
    (cause : PyObject) :
  call_message c = Some msg →
  msg ≠ EmptyString →
  telemetry_returns T (construct T c) calls →
  ∃ o, result (construct T c) calls = Ok o ∧
       getattribute (raise_from o cause) "message" = Ok (VStr msg) ∧
       getattribute (raise_from o cause) "docs_link" = Ok VNone ∧
       str (raise_from o cause) = Ok msg.
Proof.
  intros Hmsg Hne Hret.
  destruct (construct_returns T c calls Hret) as (o & Hb & Hres).
  exists o. split; [assumption|].
  destruct (built_fields c o Hb) as (_ & _ & Hd & Hm).
  rewrite Hmsg in Hm. simpl of_opt_str in Hm.
  rewrite (truthy_nonempty _ Hne) in Hm.
  split; [by apply getattribute_own|].
  split; [by apply getattribute_own|].
  by apply str_message_only.
Qed.

Lemma X13_own_attributes_shadow_the_cause_witness :
  call_message audio_call = Some "no audio backend" ∧
  "no audio backend" ≠ EmptyString ∧
  telemetry_returns accepting (construct accepting audio_call) [] ∧
  ∃ o, result (construct accepting audio_call) [] = Ok o ∧
       getattribute
         (raise_from o (plain_object "OSError" {[ "message" := VStr "device busy" ]}))
         "message" = Ok (VStr "no audio backend") ∧
       getattribute
         (raise_from o (plain_object "OSError" {[ "message" := VStr "device busy" ]}))
         "docs_link" = Ok VNone ∧
       str (raise_from o (plain_object "OSError" {[ "message" := VStr "device busy" ]}))
         = Ok "no audio backend".
Proof.
  assert (H1 : call_message audio_call = Some "no audio backend") by reflexivity.
  assert (H2 : "no audio backend" ≠ EmptyString) by discriminate.
  assert (H3 : telemetry_returns accepting (construct accepting audio_call) [])
    by apply accepting_returns.
  exact (conj H1 (conj H2 (conj H3
    (X13_own_attributes_shadow_the_cause accepting audio_call [] _ _ H1 H2 H3)))).
Defined.

(** ** The class hierarchy *)

(** X14.  Every instance of the fifteen classes is a [HaystackError] and an
    [Exception]: one [except HaystackError] clause (or [except Exception])
    catches them all. *)
Theorem X14_every_error_is_a_HaystackError (o : Obj) :
  isinstance o (Tax HaystackError) = true ∧
  isinstance o Exception = true ∧
  isinstance o BaseException = true.
Proof. unfold isinstance. destruct (ob_type o); repeat split; reflexivity. Qed.

(** X15.  [DuplicateDocumentError] is the only class of the module that is a
    [ValueError]: [except ValueError] catches an error of the module exactly
    when it is a [DuplicateDocumentError]. *)
Theorem X15_only_DuplicateDocumentError_is_a_ValueError (o : Obj) :
  isinstance o ValueError = true ↔ ob_type o = DuplicateDocumentError.
Proof. unfold isinstance. apply only_duplicate_is_value_error. Qed.

(** X16.  What an [except] clause on each class with subclasses catches: the
    class and the classes declared below it, and no class of another branch
    (a [CohereError] is not an [OpenAIError], a document store error is not
    a [NodeError]). *)
Theorem X16_what_each_handler_catches (o : Obj) :
  isinstance o (Tax PipelineError) =
    bool_decide (ob_type o ∈
      [PipelineError; PipelineSchemaError; PipelineConfigError]) ∧
  isinstance o (Tax DocumentStoreError) =
    bool_decide (ob_type o ∈
      [DocumentStoreError; FilterError; PineconeDocumentStoreError;
       DuplicateDocumentError]) ∧
  isinstance o (Tax NodeError) =
    bool_decide (ob_type o ∈
      [NodeError; AudioNodeError; OpenAIError; OpenAIRateLimitError;
       CohereError; ImageToTextError]) ∧
  isinstance o (Tax OpenAIError) =
    bool_decide (ob_type o ∈ [OpenAIError; OpenAIRateLimitError]) ∧
  isinstance o (Tax ModelingError) = bool_decide (ob_type o = ModelingError).
Proof. unfold isinstance. destruct (ob_type o); vm_compute; auto. Qed.

(** X17.  Every class other than [HaystackError] itself belongs to exactly
    one of the four branches below [HaystackError]. *)
Theorem X17_one_branch_per_class (k : Kind) :
  length (filter (fun f => issubclass (Tax k) (Tax f) = true) families) =
    if decide (k = HaystackError) then 0 else 1.
Proof. destruct k; reflexivity. Qed.

(** ** Event names *)

(** X18.  The event name tells the class: two constructions whose events
    have the same name instantiate the same class. *)
Theorem X18_event_name_identifies_the_class
    (T T' : Telemetry) (c c' : Call) (calls calls' : list Event) (ev ev' : Event) :
  emitted (construct T c) calls = [ev] →
  emitted (construct T' c') calls' = [ev'] →
  event ev = event ev' →
  call_kind c = call_kind c'.
Proof.
  intros Hev Hev' Heq.
  destruct (construct_outcome T c calls) as (e & _ & Hs & _ & _ & Hem & _).
  destruct (construct_outcome T' c' calls') as (e' & _ & Hs' & _ & _ & Hem' & _).
  rewrite Hem in Hev. rewrite Hem' in Hev'.
  injection Hev as ->. injection Hev' as ->.
  rewrite (sent_event c ev Hs), (sent_event c' ev' Hs') in Heq.
  destruct (call_kind c), (call_kind c'); try reflexivity; discriminate Heq.
Qed.

Lemma X18_event_name_identifies_the_class_witness :
  emitted (construct accepting store_error_call) [] =
    [mkEvent "DocumentStoreError raised" ∅] ∧
  emitted (construct unreachable loud_store_error_call)
    [mkEvent "DocumentStoreError raised" ∅] =
    [mkEvent "DocumentStoreError raised"
       {[ "message" := VStr "no index for customer 4711" ]}] ∧
  "DocumentStoreError raised" = "DocumentStoreError raised" ∧
  call_kind store_error_call = call_kind loud_store_error_call.
Proof.
  assert (H1 : emitted (construct accepting store_error_call) [] =
                 [mkEvent "DocumentStoreError raised" ∅]) by reflexivity.
  assert (H2 : emitted (construct unreachable loud_store_error_call)
                 [mkEvent "DocumentStoreError raised" ∅] =
                 [mkEvent "DocumentStoreError raised"
                    {[ "message" := VStr "no index for customer 4711" ]}])
    by reflexivity.
  assert (H3 : "DocumentStoreError raised" = "DocumentStoreError raised")
    by reflexivity.
  exact (conj H1 (conj H2 (conj H3
    (X18_event_name_identifies_the_class accepting unreachable
       store_error_call loud_store_error_call _ _ _ _ H1 H2 H3)))).
Defined.
